(** * Footer widgets of [python/tui/textualize/footer.py]

    The file defines four Textual classes.  Two layers are modelled:

    - the top level of the module (imports, class statements, the
      [__main__] block) as a sequence of statements run against a
      namespace, to see which names are bound when a class statement
      evaluates its bases;
    - the classes themselves: their stylesheet, their reactive
      attribute, [compose], [watch_status] and [on_mount], over a model
      of the part of Textual they call.

    Textual is a dependency, not part of the file.  What the model takes
    from it:

    - a reactive slot is unset until the attribute is first read or
      written; that first touch stores the default and, with [init],
      runs the watcher with it; an assignment then compares with the
      stored value and stores and runs the watcher only when they
      differ; a reactive already initialised is skipped after mount;
    - [query_one] raises [NoMatches] when no widget matches the
      selector and [WrongType] when the first match is not of the
      expected type;
    - a [Label] shows its content read as markup; only two kinds of
      content are modelled, text made of letters, digits and spaces
      (shown as it is) and a lone closing tag (a [MarkupError]); for
      any other content the model gives no answer ([Outside]);
    - the stylesheet of a class is parsed before anything is composed,
      and a property Textual does not know ends the start with
      [StylesheetParseError].

    The repaint request a reactive sends to its owner touches no state
    modelled here and is left out. *)

From Stdlib Require Import Ascii.
From stdpp Require Import strings list gmap.

Open Scope string_scope.

(** ** Exceptions and the state/exception monad *)

Inductive exn :=
| NameError (name : string)
| NoMatches (selector : string)
| WrongType (selector : string)
| MarkupError (content : string)
| StylesheetParseError (property : string).

(** [Outside]: the call leaves the part of Textual that is modelled. *)
Inductive outcome (A : Type) :=
| Returns (a : A)
| Raises (e : exn)
| Outside.
Arguments Returns {A} a.
Arguments Raises {A} e.
Arguments Outside {A}.

(** A method of an object of type [S]: it returns or raises, and the
    mutations done before a raise stay. *)
Definition M (S A : Type) : Type := S → outcome A * S.

#[global] Instance M_ret {S} : MRet (M S) := λ A a self, (Returns a, self).

#[global] Instance M_bind {S} : MBind (M S) := λ A B k m self,
  match m self with
  | (Returns a, self') => k a self'
  | (Raises e, self') => (Raises e, self')
  | (Outside, self') => (Outside, self')
  end.

Definition modify {S} (f : S → S) : M S unit := λ self, (Returns tt, f self).

(** ** The part of Textual the classes use *)

Module Textual.

Inductive widget_class := FooterT | LabelT | HeaderT | HorizontalT.

#[global] Instance widget_class_eq_dec : EqDecision widget_class.
Proof. solve_decision. Defined.

Definition class_name (c : widget_class) : string :=
  match c with
  | FooterT => "Footer"
  | LabelT => "Label"
  | HeaderT => "Header"
  | HorizontalT => "Horizontal"
  end.

(** A mounted widget.  The widgets of a component are kept in a store
    in document order; a reference to a widget is its position there,
    and [w_parent] is the position of the enclosing [with] container
    ([None] directly under the component).  [w_content] is the text the
    widget shows. *)
Record widget := Widget {
  w_class : widget_class;
  w_id : option string;
  w_classes : list string;
  w_content : string;
  w_refreshes : nat;
  w_parent : option nat;
}.

(** *** Markup *)

Definition plain_char (c : ascii) : bool :=
  let n := nat_of_ascii c in
  ((n =? 32) || ((48 <=? n) && (n <=? 57))
   || ((65 <=? n) && (n <=? 90)) || ((97 <=? n) && (n <=? 122)))%nat.

(** Letters, digits and spaces only. *)
Fixpoint plain (s : string) : bool :=
  match s with
  | EmptyString => true
  | String c rest => plain_char c && plain rest
  end.

Definition lower_char (c : ascii) : bool :=
  let n := nat_of_ascii c in ((97 <=? n) && (n <=? 122))%nat.

(** One or more lower-case letters, then the closing bracket. *)
Fixpoint tag_name_end (s : string) : bool :=
  match s with
  | EmptyString => false
  | String c rest =>
      lower_char c
      && match rest with
         | String "]"%char EmptyString => true
         | _ => tag_name_end rest
         end
  end.

(** The string is a closing tag such as [[/b]] and nothing else. *)
Definition lone_closing_tag (s : string) : bool :=
  match s with
  | String "["%char (String "/"%char name) => tag_name_end name
  | _ => false
  end.

Inductive visual :=
| Shows (text : string)
| Malformed
| Unknown.

Definition markup (content : string) : visual :=
  if plain content then Shows content
  else if lone_closing_tag content then Malformed
  else Unknown.

(** *** Widgets *)

Definition Footer (id : option string) (parent : option nat) : widget :=
  Widget FooterT id [] "" 0 parent.
Definition Header (parent : option nat) : widget :=
  Widget HeaderT None [] "" 0 parent.
Definition Horizontal (id : option string) (parent : option nat) : widget :=
  Widget HorizontalT id [] "" 0 parent.

(** [Label(content, id=..., classes=...)]; content that is not plain
    text is outside the model. *)
Definition Label {T} (content : string) (id : option string)
    (classes : list string) (parent : option nat) : M T widget := λ self,
  match markup content with
  | Shows text => (Returns (Widget LabelT id classes text 0 parent), self)
  | _ => (Outside, self)
  end.

(** Simple selectors: [#id], [.class], or a type name. *)
Inductive selector :=
| IdSel (id : string)
| ClassSel (c : string)
| TypeSel (name : string).

Definition parse_selector (s : string) : selector :=
  match s with
  | String "#"%char id => IdSel id
  | String "."%char c => ClassSel c
  | _ => TypeSel s
  end.

Definition matches (sel : selector) (w : widget) : bool :=
  match sel with
  | IdSel id => bool_decide (w_id w = Some id)
  | ClassSel c => bool_decide (c ∈ w_classes w)
  | TypeSel name => bool_decide (class_name (w_class w) = name)
  end.

(** Objects that own widgets. *)
Class DOMNode (T : Type) := {
  nodes : T → list widget;
  set_nodes : list widget → T → T;
}.

(** [self.query_one(selector, expect_type)]: the first widget in
    document order that matches the selector; [NoMatches] when there is
    none, [WrongType] when it is not of the expected type. *)
Definition query_one `{DOMNode T} (sel : string) (expect_type : widget_class)
    : M T nat := λ self,
  match list_find (λ w, matches (parse_selector sel) w = true)
                  (nodes self) with
  | Some (ref, w) =>
      if decide (w_class w = expect_type) then (Returns ref, self)
      else (Raises (WrongType sel), self)
  | None => (Raises (NoMatches sel), self)
  end.

(** [widget.update(content)] on the widget behind a reference: the
    content is read as markup first, then shown and the widget
    refreshed. *)
Definition render (text : string) (w : widget) : widget :=
  Widget (w_class w) (w_id w) (w_classes w) text (S (w_refreshes w))
         (w_parent w).

Definition update `{DOMNode T} (ref : nat) (content : string) : M T unit :=
  λ self,
  match markup content with
  | Shows text =>
      (Returns tt, set_nodes (alter (render text) ref (nodes self)) self)
  | Malformed => (Raises (MarkupError content), self)
  | Unknown => (Outside, self)
  end.

(** *** Reactive attributes *)

(** The descriptor [reactive(default, init=True, always_update=False)]. *)
Record Reactive := {
  r_default : string;
  r_init : bool;
  r_always_update : bool;
}.

Definition reactive (default : string) : Reactive :=
  {| r_default := default; r_init := true; r_always_update := false |}.

Section Descriptor.
Context {T : Type}.
Variable descr : Reactive.
(** the slot [_reactive_<name>] of the object, [None] while unset *)
Variable load : T → option string.
Variable store : string → T → T.
(** [getattr(obj, "watch_<name>", None)] *)
Variable watcher : option (string → M T unit).

Definition check_watchers (value : string) : M T unit :=
  match watcher with
  | Some watch => watch value
  | None => mret tt
  end.

(** First touch of the attribute: the default is stored, then the
    watchers run with it when [init] is set. *)
Definition initialize_reactive : M T unit := λ obj,
  match load obj with
  | Some _ => (Returns tt, obj)
  | None =>
      if r_init descr
      then check_watchers (r_default descr) (store (r_default descr) obj)
      else (Returns tt, store (r_default descr) obj)
  end.

(** The stored value, once the slot is set. *)
Definition stored : M T string := λ obj,
  (Returns (default (r_default descr) (load obj)), obj).

(** [obj.<name>] *)
Definition Reactive_get : M T string :=
  initialize_reactive;; stored.

(** [obj.<name> = value] *)
Definition Reactive_set (value : string) : M T unit :=
  initialize_reactive;;
  current_value ← stored;
  if decide (r_always_update descr = true ∨ current_value ≠ value)
  then modify (store value);; check_watchers value
  else mret tt.

(** After mount every reactive not yet touched is initialised. *)
Definition initialize_object : M T unit := initialize_reactive.
End Descriptor.

(** *** Stylesheets *)

Record rule_set := RuleSet {
  rule_selector : string;
  declarations : list (string * string);
}.

(** The style properties of Textual that the file uses. *)
Definition style_properties : list string :=
  [ "dock"; "height"; "width"; "min-width"; "max-width";
    "overflow"; "overflow-x"; "overflow-y";
    "layout"; "grid-columns";
    "text-align"; "text-overflow";
    "padding-right"; "margin-left" ].

(** Parsing stops the start at the first property Textual does not
    know. *)
Definition parse_css {T} (css : list rule_set) : M T unit := λ self,
  match list_find (λ d, d.1 ∉ style_properties)
                  (css ≫= declarations) with
  | Some (_, d) => (Raises (StylesheetParseError d.1), self)
  | None => (Returns tt, self)
  end.

(** Start of a message pump: compose and mount the children, run the
    [on_mount] handler, then initialise the reactives. *)
Definition pre_process `{DOMNode T} (compose : M T (list widget))
    (on_mount post_mount : M T unit) : M T unit :=
  widgets ← compose;
  modify (set_nodes widgets);;
  on_mount;;
  post_mount.

(** Text shown by the first widget matching a selector, when it is a
    label. *)
Definition label_text (sel : string) (dom : list widget) : option string :=
  match list_find (λ w, matches (parse_selector sel) w = true) dom with
  | Some (_, w) =>
      if decide (w_class w = LabelT) then Some (w_content w) else None
  | None => None
  end.


End Textual.

Import Textual.

(** ** [class DynamicFooter(Container)] *)

Module DynamicFooter.

Record t := Obj {
  _reactive_status : option string;
  children : list widget;
}.

#[global] Instance dom_node : DOMNode t := {|
  nodes := children;
  set_nodes := λ ws self, Obj (_reactive_status self) ws;
|}.

(** [status = reactive("Ready")] *)
Definition status : Reactive := reactive "Ready".

(** [DynamicFooter()] *)
Definition new : t := Obj None [].

Definition watch_status (status : string) : M t unit :=
  status_label ← query_one "#status" LabelT;
  update status_label status.

(** [self.status] *)
Definition get_status : M t string :=
  Reactive_get status _reactive_status
    (λ v self, Obj (Some v) (children self))
    (Some watch_status).

(** [self.status = value], the setter of the specification. *)
Definition set_status (value : string) : M t unit :=
  Reactive_set status _reactive_status
    (λ v self, Obj (Some v) (children self))
    (Some watch_status) value.

(** [yield Footer(); yield Label(self.status, id="status")] *)
Definition compose : M t (list widget) :=
  content ← get_status;
  label ← Label content (Some "status") [] None;
  mret [Footer None None; label].

Definition mount : M t unit :=
  pre_process compose (mret tt)
    (initialize_object status _reactive_status
       (λ v self, Obj (Some v) (children self))
       (Some watch_status)).

Definition display_text (self : t) : option string :=
  label_text "#status" (children self).


(** What a client can do with a footer: let the framework mount it
    (once), and assign [status]. *)
Inductive op :=
| Mount
| SetStatus (value : string).

#[global] Instance op_eq_dec : EqDecision op.
Proof. solve_decision. Defined.




(** The label [compose] yields, after [k] refreshes, and the two
    shapes a footer is found in: no widgets, or the footer bar and a
    label whose text is the stored status unless the last assignment
    failed on its markup. *)
Definition status_label (text : string) (k : nat) : widget :=
  Widget LabelT (Some "status") [] text k None.


End DynamicFooter.

(** ** [class EnhancedFooter(Container)] *)

Module EnhancedFooter.

Record t := Obj {
  status_text : string;
  children : list widget;
}.

#[global] Instance dom_node : DOMNode t := {|
  nodes := children;
  set_nodes := λ ws self, Obj (status_text self) ws;
|}.

Definition DEFAULT_CSS : list rule_set :=
  [ RuleSet "EnhancedFooter"
      [ ("dock", "bottom"); ("height", "3"); ("overflow-x", "hidden");
        ("layout", "horizontal") ];
    RuleSet "EnhancedFooter Footer"
      [ ("width", "1fr"); ("overflow-x", "hidden") ];
    RuleSet ".status-section"
      [ ("width", "auto"); ("max-width", "25%");
        ("text-overflow", "ellipsis"); ("overflow", "hidden");
        ("text-align", "right"); ("margin-left", "1") ] ].

(** [__init__(self, status_text: str = "Ready")]; [None] stands for a
    call that leaves the argument out. *)
Definition new (status_text : option string) : t :=
  Obj (default "Ready" status_text) [].

(** [yield Footer(); yield Label(self.status_text, classes="status-section")] *)
Definition compose : M t (list widget) :=
  content ← (λ self, (Returns (status_text self), self));
  label ← Label content None ["status-section"] None;
  mret [Footer None None; label].

Definition mount : M t unit :=
  parse_css DEFAULT_CSS;;
  pre_process compose (mret tt) (mret tt).

Definition display_text (self : t) : option string :=
  label_text ".status-section" (children self).

End EnhancedFooter.

(** ** [class NoScrollFooterApp(App)] *)

Module NoScrollFooterApp.

Record t := Obj {
  _reactive_status : option string;
  children : list widget;
}.

#[global] Instance dom_node : DOMNode t := {|
  nodes := children;
  set_nodes := λ ws self, Obj (_reactive_status self) ws;
|}.

Definition CSS : list rule_set :=
  [ RuleSet "#main-footer"
      [ ("dock", "bottom"); ("height", "3"); ("overflow-x", "hidden");
        ("overflow-y", "hidden"); ("layout", "grid");
        ("grid-columns", "2fr 1fr") ];
    RuleSet "#footer-keys"
      [ ("overflow-x", "hidden"); ("min-width", "0") ];
    RuleSet "#footer-status"
      [ ("text-align", "right"); ("text-overflow", "ellipsis");
        ("overflow", "hidden"); ("white-space", "nowrap");
        ("padding-right", "1") ] ].

(** [status = reactive("Ready")] *)
Definition status : Reactive := reactive "Ready".

(** [NoScrollFooterApp()] *)
Definition new : t := Obj None [].

(** [self.status]; the class defines no [watch_status]. *)
Definition get_status : M t string :=
  Reactive_get status _reactive_status
    (λ v self, Obj (Some v) (children self)) None.

(** [self.status = value] *)
Definition set_status (value : string) : M t unit :=
  Reactive_set status _reactive_status
    (λ v self, Obj (Some v) (children self)) None value.

(** [yield Header()], then inside [with Horizontal(id="main-footer")]:
    [yield Footer(id="footer-keys")] and
    [yield Label(self.status, id="footer-status")]. *)
Definition compose : M t (list widget) :=
  content ← get_status;
  label ← Label content (Some "footer-status") [] (Some 1);
  mret [ Header None;
         Horizontal (Some "main-footer") None;
         Footer (Some "footer-keys") (Some 1);
         label ].

Definition on_mount : M t unit :=
  set_status "Application loaded successfully".

(** [app.run()] up to the first idle point. *)
Definition run : M t unit :=
  parse_css CSS;;
  pre_process compose on_mount
    (initialize_object status _reactive_status
       (λ v self, Obj (Some v) (children self)) None).

Definition display_text (self : t) : option string :=
  label_text "#footer-status" (children self).

(** Assignments in sequence. *)
Definition assign_all (values : list string) (self : t) : t :=
  foldl (λ self value, (set_status value self).2) self values.

End NoScrollFooterApp.

(** ** [class ContainerFooterApp(App)] *)

Module ContainerFooterApp.

Record t := Obj {
  children : list widget;
}.

#[global] Instance dom_node : DOMNode t := {|
  nodes := children;
  set_nodes := λ ws self, Obj ws;
|}.

Definition CSS : list rule_set :=
  [ RuleSet "#footer-container"
      [ ("dock", "bottom"); ("height", "1"); ("overflow-x", "hidden");
        ("layout", "grid"); ("grid-columns", "1fr auto") ];
    RuleSet "#footer-left"
      [ ("width", "75%"); ("overflow-x", "hidden") ];
    RuleSet "#status-label"
      [ ("width", "25%"); ("text-align", "right");
        ("text-overflow", "ellipsis"); ("overflow", "hidden");
        ("white-space", "nowrap") ] ].

(** [ContainerFooterApp()] *)
Definition new : t := Obj [].

(** Inside [with Horizontal(id="footer-container")]:
    [yield Footer(id="footer-left")] and
    [yield Label("Status: Ready", id="status-label")]. *)
Definition compose : M t (list widget) :=
  label ← Label "Status: Ready" (Some "status-label") [] (Some 0);
  mret [ Horizontal (Some "footer-container") None;
         Footer (Some "footer-left") (Some 0);
         label ].

(** The class defines no [on_mount] and no reactive. *)
Definition run : M t unit :=
  parse_css CSS;;
  pre_process compose (mret tt) (mret tt).

End ContainerFooterApp.

(** ** Widget trees *)

Module Dom.

(** What [update] leaves alone in a widget. *)
Definition skeleton (w : widget)
    : widget_class * option string * list string * option nat :=
  (w_class w, w_id w, w_classes w, w_parent w).

(** Two widget lists that differ at most in what labels with id
    [status] show. *)
Definition same_but_status_label (before after : list widget) : Prop :=
  skeleton <$> after = skeleton <$> before
  ∧ ∀ j w, before !! j = Some w →
           w_id w ≠ Some "status" ∨ w_class w ≠ LabelT →
           after !! j = Some w.

End Dom.

(** ** Runs of assignments on a [DynamicFooter] *)

Module Runs.

Definition assign_all (values : list string) (self : DynamicFooter.t)
    : DynamicFooter.t :=
  foldl (λ self value, (DynamicFooter.set_status value self).2) self values.


End Runs.

(** ** The top level of the module *)

Module Py.

(** Top-level statements, as far as names are concerned.  A class
    statement evaluates its bases, then its body; [body] lists the
    names the body loads while it runs (calls at class level and the
    annotations of its [def]s). *)
#[warnings="-register-all"]
Inductive stmt :=
| ImportFrom (module : string) (names : list string)
| ClassDef (name : string) (bases body : list string)
| Assign (target callee : string)
| CallMethod (receiver method : string)
| If (test : list string) (body : list stmt).

(** The builtins the file refers to, and the globals a module has
    before its first statement runs. *)
Definition builtins : gset string := {[ "str" ]}.
Definition module_globals : gset string := {[ "__name__" ]}.

(** First name of [names] that neither the namespace nor the builtins
    bind. *)
Definition unbound (ns : gset string) (names : list string) : option string :=
  snd <$> (list_find (λ n, (n ∉ ns) ∧ (n ∉ builtins)) names).

Definition load_names (names : list string) : M (gset string) unit := λ ns,
  match unbound ns names with
  | Some n => (Raises (NameError n), ns)
  | None => (Returns tt, ns)
  end.

Definition bind_names (names : list string) : M (gset string) unit :=
  modify (λ ns, list_to_set names ∪ ns).

Fixpoint exec (s : stmt) : M (gset string) unit :=
  match s with
  | ImportFrom _ names => bind_names names
  | ClassDef name bases body =>
      load_names bases;; load_names body;; bind_names [name]
  | Assign target callee => load_names [callee];; bind_names [target]
  | CallMethod receiver _ => load_names [receiver]
  | If test body =>
      load_names test;;
      (fix exec_all (body : list stmt) : M (gset string) unit :=
         match body with
         | [] => mret tt
         | s :: rest => exec s;; exec_all rest
         end) body
  end.

Fixpoint exec_all (body : list stmt) : M (gset string) unit :=
  match body with
  | [] => mret tt
  | s :: rest => exec s;; exec_all rest
  end.

(** [footer.py], run as a script. *)
Definition footer_py : list stmt :=
  [ ImportFrom "textual.app" ["App"; "ComposeResult"];
    ImportFrom "textual.widgets" ["Footer"; "Label"; "Header"];
    ImportFrom "textual.containers" ["Horizontal"];
    ImportFrom "textual.reactive" ["reactive"];
    ClassDef "ContainerFooterApp" ["App"] ["ComposeResult"];
    ClassDef "DynamicFooter" ["Container"]
      ["reactive"; "ComposeResult"; "str"];
    ClassDef "EnhancedFooter" ["Container"] ["str"; "ComposeResult"];
    ClassDef "NoScrollFooterApp" ["App"] ["reactive"; "ComposeResult"];
    If ["__name__"]
      [ Assign "app" "NoScrollFooterApp";
        CallMethod "app" "run" ] ].

Definition imported (program : list stmt) : list string :=
  program ≫= λ s, match s with ImportFrom _ names => names | _ => [] end.

End Py.

(** * Properties *)

(** ** The module's top level *)

Section TopLevel.
Import Py.

(** C9. [Container] is not among the imported names; running the
    module raises [NameError] for it at the [DynamicFooter] class
    statement, and the run ends there: [DynamicFooter],
    [EnhancedFooter], [NoScrollFooterApp] and [app] are never bound. *)
Theorem module_raises_NameError :
  ("Container" ∉ imported footer_py)
  ∧ ("Horizontal" ∈ imported footer_py)
  ∧ (exec_all footer_py module_globals).1 = Raises (NameError "Container")
  ∧ ("ContainerFooterApp" ∈ (exec_all footer_py module_globals).2)
  ∧ ("DynamicFooter" ∉ (exec_all footer_py module_globals).2)
  ∧ ("EnhancedFooter" ∉ (exec_all footer_py module_globals).2)
  ∧ ("NoScrollFooterApp" ∉ (exec_all footer_py module_globals).2)
  ∧ ("app" ∉ (exec_all footer_py module_globals).2).
Proof.
  repeat split;
    solve [ by vm_compute
          | apply (bool_decide_unpack _); by vm_compute ].
Qed.

End TopLevel.

(** ** [DynamicFooter]: one step from a known state *)

Section DynamicFooterSteps.
Import DynamicFooter.

Ltac run_method :=
  unfold set_status, get_status, mount, compose, pre_process,
    Reactive_set, Reactive_get, initialize_object, initialize_reactive,
    stored, check_watchers, watch_status, query_one, update, Label,
    modify, mbind, M_bind, mret, M_ret;
  simpl.

Lemma plain_shows s : plain s = true → markup s = Shows s.
Proof. intros Hs. unfold markup. by rewrite Hs. Qed.


Lemma set_status_untouched_bare s :
  set_status s (Obj None [])
  = (Raises (NoMatches "#status"), Obj (Some "Ready") []).
Proof. reflexivity. Qed.

Lemma set_status_same v ws :
  set_status v (Obj (Some v) ws) = (Returns tt, Obj (Some v) ws).
Proof.
  run_method. destruct (decide _) as [[Habs|Habs]|_]; [discriminate|done|done].
Qed.

Lemma set_status_bare v s :
  s ≠ v →
  set_status s (Obj (Some v) [])
  = (Raises (NoMatches "#status"), Obj (Some s) []).
Proof.
  intros Hne. run_method.
  destruct (decide _) as [_|Habs]; [reflexivity|].
  exfalso. apply Habs. right. congruence.
Qed.



Lemma mount_touched v ws :
  mount (Obj (Some v) ws)
  = match markup v with
    | Shows shown =>
        (Returns tt,
         Obj (Some v) [Footer None None; status_label shown 0])
    | _ => (Outside, Obj (Some v) ws)
    end.
Proof. run_method. by destruct (markup v). Qed.


End DynamicFooterSteps.

(** ** Shape of the states a [DynamicFooter] reaches *)

Section DynamicFooterStates.
Import DynamicFooter.

Lemma shows_plain v shown :
  markup v = Shows shown → shown = v ∧ plain v = true.
Proof.
  unfold markup. destruct (plain v); [by intros [= <-]|].
  by destruct (lone_closing_tag v).
Qed.








End DynamicFooterStates.

(** ** [DynamicFooter]: the setter while the label exists *)

Section DynamicFooterSetter.
Import DynamicFooter.













End DynamicFooterSetter.

(** ** [DynamicFooter]: before the label exists, and refresh counts *)

Section DynamicFooterEdges.
Import DynamicFooter.

(** C3 as stated fails: assigning a string to a new footer raises,
    because the watcher's [query_one] finds no label. *)
Lemma set_status_before_mount_raises :
  children new = []
  ∧ (set_status "Loading" new).1 = Raises (NoMatches "#status")
  ∧ (set_status "Loading" new).1 ≠ Returns tt.
Proof. repeat split. discriminate. Qed.

(** C3, amended. On a footer that has no widgets (not mounted yet, or
    whose mount failed) an assignment creates no widget and shows no
    text.  It returns silently only when the string is the one already
    stored; in every other case the watcher runs, [query_one] finds
    nothing and [NoMatches] is raised. *)
Theorem set_status_before_mount self s :
  children self = [] →
  (set_status s self).1
  = (if decide (_reactive_status self = Some s) then Returns tt
     else Raises (NoMatches "#status"))
  ∧ children (set_status s self).2 = []
  ∧ display_text (set_status s self).2 = None.
Proof.
  destruct self as [[v|] ws]; simpl; intros ->.
  - destruct (decide (Some v = Some s)) as [[= ->]|Hne].
    + by rewrite set_status_same.
    + rewrite set_status_bare by congruence. done.
  - rewrite set_status_untouched_bare. done.
Qed.

Lemma set_status_before_mount_witness :
  children new = []
  ∧ (set_status "Loading" new).1
    = (if decide (_reactive_status new = Some "Loading") then Returns tt
       else Raises (NoMatches "#status"))
  ∧ children (set_status "Loading" new).2 = []
  ∧ display_text (set_status "Loading" new).2 = None.
Proof.
  split; [reflexivity|].
  exact (set_status_before_mount new "Loading" eq_refl).
Defined.




(** C7 on the code. Mounting a new [DynamicFooter] fails: [compose]
    reads [self.status], that first read runs [watch_status("Ready")]
    before any label exists, and [NoMatches] is raised; the footer is
    left without widgets and shows nothing.  A new [EnhancedFooter]
    mounts and shows ["Ready"]. *)
Theorem new_footer_mount_raises :
  (mount new).1 = Raises (NoMatches "#status")
  ∧ children (mount new).2 = []
  ∧ display_text (mount new).2 = None
  ∧ (EnhancedFooter.mount (EnhancedFooter.new None)).1 = Returns tt
  ∧ EnhancedFooter.display_text
      (EnhancedFooter.mount (EnhancedFooter.new None)).2
    = Some "Ready".
Proof. repeat split. Qed.

End DynamicFooterEdges.

(** ** [NoScrollFooterApp] *)

Section NoScrollFooterAppLabel.
Import NoScrollFooterApp.

Lemma app_set_status_children self s :
  (set_status s self).1 = Returns tt
  ∧ children (set_status s self).2 = children self
  ∧ is_Some (_reactive_status (set_status s self).2).
Proof.
  destruct self as [[v|] ws];
    unfold set_status, Reactive_set, initialize_reactive, stored,
      check_watchers, modify, mbind, M_bind, mret, M_ret; simpl;
    destruct (decide _); simpl; eauto.
Qed.

Lemma app_assign_all_children values self :
  children (assign_all values self) = children self.
Proof.
  revert self. induction values as [|v values IH]; intros self; [done|].
  change (assign_all (v :: values) self)
    with (assign_all values (set_status v self).2).
  rewrite IH. apply app_set_status_children.
Qed.

(** C2 on the application the file runs. [NoScrollFooterApp().run()]
    stops with [StylesheetParseError] at the [white-space] declaration
    of its [CSS], before anything is composed and before [on_mount]:
    the app has no widgets, no label shows anything, and [status] still
    reads ["Ready"]. *)
Theorem app_run_stops_at_stylesheet :
  (run new).1 = Raises (StylesheetParseError "white-space")
  ∧ children (run new).2 = []
  ∧ display_text (run new).2 = None
  ∧ (get_status (run new).2).1 = Returns "Ready".
Proof. repeat split. Qed.

(** C10. An assignment to [status] of a [NoScrollFooterApp] returns and
    changes no widget.  So when [compose] has yielded the widgets, the
    label among them shows the status read at that moment, and goes on
    showing it whatever is assigned afterwards. *)
Theorem label_keeps_compose_time_status self values s :
  (set_status s self).1 = Returns tt
  ∧ children (set_status s self).2 = children self
  ∧ children (assign_all values self) = children self
  ∧ display_text (assign_all values self) = display_text self
  ∧ ∀ widgets composed,
      compose self = (Returns widgets, composed) →
      children (assign_all values (set_nodes widgets composed)) = widgets
      ∧ is_Some (_reactive_status composed)
      ∧ display_text (assign_all values (set_nodes widgets composed))
        = _reactive_status composed.
Proof.
  destruct (app_set_status_children self s) as (Hret & Hch & _).
  split; [exact Hret|]. split; [exact Hch|].
  split; [apply app_assign_all_children|].
  split; [unfold display_text; by rewrite app_assign_all_children|].
  intros widgets composed Hcompose.
  unfold display_text. rewrite app_assign_all_children. simpl.
  split; [reflexivity|].
  revert Hcompose.
  destruct self as [[v|] ws];
    unfold compose, get_status, Reactive_get, initialize_reactive, stored,
      check_watchers, Label, mbind, M_bind, mret, M_ret; simpl.
  - destruct (markup v) as [shown| |] eqn:Hv; intros [= <- <-].
    apply shows_plain in Hv as [-> _]. split; [by eexists|reflexivity].
  - intros [= <- <-]. split; [by eexists|reflexivity].
Qed.

End NoScrollFooterAppLabel.

(** ** Assignments on any object *)

Section AnyObject.

Lemma same_but_refl ws : Dom.same_but_status_label ws ws.
Proof. by split. Qed.

Lemma same_but_trans ws1 ws2 ws3 :
  Dom.same_but_status_label ws1 ws2 →
  Dom.same_but_status_label ws2 ws3 →
  Dom.same_but_status_label ws1 ws3.
Proof.
  intros [Hs12 Ho12] [Hs23 Ho23]. split; [congruence|].
  intros j w Hj Hw. apply Ho23; [by apply Ho12|done].
Qed.

(** An assignment changes the object only by storing values and by
    what the watcher does. *)
Lemma Reactive_set_preserves {T} descr (load : T → option string) store
    watcher (P : T → T → Prop) :
  (∀ obj, P obj obj) →
  (∀ a b c, P a b → P b c → P a c) →
  (∀ v obj, P obj (store v obj)) →
  (∀ watch v obj, watcher = Some watch → P obj (watch v obj).2) →
  ∀ value obj, P obj (Reactive_set descr load store watcher value obj).2.
Proof.
  intros Hrefl Htrans Hstore Hwatch value obj.
  assert (Hcheck : ∀ v o, P o (check_watchers watcher v o).2).
  { intros v o. unfold check_watchers. destruct watcher as [watch|].
    - by apply Hwatch.
    - apply Hrefl. }
  assert (Hinit : P obj (initialize_reactive descr load store watcher obj).2).
  { unfold initialize_reactive. destruct (load obj); [apply Hrefl|].
    destruct (r_init descr); simpl; [|apply Hstore].
    eapply Htrans; [apply Hstore|apply Hcheck]. }
  unfold Reactive_set, mbind, M_bind.
  destruct (initialize_reactive descr load store watcher obj)
    as [[[]|e|] obj1]; simpl in *; try exact Hinit.
  unfold stored, modify, mret, M_ret. simpl.
  destruct (decide _); simpl; [|exact Hinit].
  eapply Htrans; [exact Hinit|].
  eapply Htrans; [apply Hstore|apply Hcheck].
Qed.

Import DynamicFooter.

Lemma watch_status_children v self :
  Dom.same_but_status_label (children self)
    (children (watch_status v self).2).
Proof.
  unfold watch_status, query_one, update, mbind, M_bind. simpl.
  destruct (list_find _ _) as [[ref w]|] eqn:Hfind;
    [|apply same_but_refl].
  destruct (decide (w_class w = LabelT)) as [Hclass|_];
    [|apply same_but_refl].
  destruct (markup v) as [text| |]; simpl; try apply same_but_refl.
  apply list_find_Some in Hfind as (Href & Hmatch & _).
  split.
  - rewrite (list_fmap_alter _ (render text) id).
    + by apply list_alter_id.
    + by apply Forall_forall.
  - intros j w' Hj Hother.
    destruct (decide (ref = j)) as [->|Hne].
    + exfalso. assert (w' = w) as -> by congruence.
      apply bool_decide_eq_true in Hmatch. tauto.
    + by rewrite list_lookup_alter_ne.
Qed.

Lemma set_status_same_but self s :
  Dom.same_but_status_label (children self) (children (set_status s self).2).
Proof.
  unfold set_status.
  apply (Reactive_set_preserves status _reactive_status _ (Some watch_status)
           (λ a b, Dom.same_but_status_label (children a) (children b))).
  - intros obj. apply same_but_refl.
  - intros a b c. apply same_but_trans.
  - intros v obj. apply same_but_refl.
  - intros watch v obj [= <-]. apply watch_status_children.
Qed.

(** X1. Whatever the footer's widgets are, an assignment to [status]
    keeps the number of widgets and the class, id, style classes and
    parent of each, and leaves every widget that is not a [Label] with
    id [status] exactly as it was. *)
Theorem set_status_keeps_skeleton self s :
  Dom.skeleton <$> children (set_status s self).2
  = Dom.skeleton <$> children self
  ∧ length (children (set_status s self).2) = length (children self)
  ∧ ∀ j w, children self !! j = Some w →
           w_id w ≠ Some "status" ∨ w_class w ≠ LabelT →
           children (set_status s self).2 !! j = Some w.
Proof.
  destruct (set_status_same_but self s) as [Hskel Hother].
  split; [exact Hskel|]. split; [|exact Hother].
  rewrite <- (length_fmap Dom.skeleton (children (set_status s self).2)).
  rewrite Hskel. apply length_fmap.
Qed.

(** X2. On a footer whose status has been touched, an assignment that
    raises has still stored the new string and has changed no widget,
    and what it raises is [NoMatches] (no widget with id [status]),
    [WrongType] (that widget is not a [Label]) or [MarkupError] (the
    string is not valid markup). *)
Theorem set_status_raise_keeps_widgets self s e :
  is_Some (_reactive_status self) →
  (set_status s self).1 = Raises e →
  e ∈ [NoMatches "#status"; WrongType "#status"; MarkupError s]
  ∧ children (set_status s self).2 = children self
  ∧ _reactive_status (set_status s self).2 = Some s.
Proof.
  destruct self as [o ws]. intros [v Hv]. simpl in Hv. subst o.
  unfold set_status, Reactive_set, initialize_reactive, stored,
    check_watchers, watch_status, query_one, update, modify,
    mbind, M_bind, mret, M_ret. simpl.
  destruct (decide _) as [_|_]; simpl; [|discriminate].
  destruct (list_find _ ws) as [[ref w]|]; simpl.
  - destruct (decide (w_class w = LabelT)); simpl.
    + destruct (markup s); simpl; intros [= <-].
      split; [|done]. set_solver.
    + intros [= <-]. split; [|done]. set_solver.
  - intros [= <-]. split; [|done]. set_solver.
Qed.

Lemma set_status_raise_keeps_widgets_witness :
  is_Some (_reactive_status (Obj (Some "Ready") []))
  ∧ (set_status "Loading" (Obj (Some "Ready") [])).1
    = Raises (NoMatches "#status")
  ∧ NoMatches "#status"
    ∈ [NoMatches "#status"; WrongType "#status"; MarkupError "Loading"]
  ∧ children (set_status "Loading" (Obj (Some "Ready") [])).2 = []
  ∧ _reactive_status (set_status "Loading" (Obj (Some "Ready") [])).2
    = Some "Loading".
Proof.
  split; [by eexists|]. split; [reflexivity|].
  exact (set_status_raise_keeps_widgets (Obj (Some "Ready") []) "Loading"
           (NoMatches "#status") (ex_intro _ "Ready" eq_refl) eq_refl).
Defined.

(** X4. A footer can be mounted only after its status has been touched:
    mounting a new footer raises [NoMatches] and leaves no widget, while
    a footer that stores a string of letters, digits and spaces mounts
    with the label showing that string and no refresh yet.  The first
    assignment to a new footer is lost: whatever string it gave, the
    label shows ["Ready"] after the mount. *)
Theorem mount_after_first_touch v s :
  plain v = true →
  mount (Obj (Some v) [])
  = (Returns tt, Obj (Some v) [Footer None None; status_label v 0])
  ∧ mount new = (Raises (NoMatches "#status"), Obj (Some "Ready") [])
  ∧ (mount (set_status s new).2).1 = Returns tt
  ∧ display_text (mount (set_status s new).2).2 = Some "Ready".
Proof.
  intros Hv. rewrite mount_touched, (plain_shows v Hv).
  repeat split.
Qed.

Lemma mount_after_first_touch_witness :
  plain "Saved" = true
  ∧ mount (Obj (Some "Saved") [])
    = (Returns tt, Obj (Some "Saved") [Footer None None; status_label "Saved" 0])
  ∧ mount new = (Raises (NoMatches "#status"), Obj (Some "Ready") [])
  ∧ (mount (set_status "Starting" new).2).1 = Returns tt
  ∧ display_text (mount (set_status "Starting" new).2).2 = Some "Ready".
Proof.
  split; [reflexivity|].
  exact (mount_after_first_touch "Saved" "Starting" eq_refl).
Defined.

End AnyObject.

(** ** [DynamicFooter]: runs of assignments *)

Section DynamicFooterRuns.
Import DynamicFooter.





End DynamicFooterRuns.

(** ** The other classes *)

Section OtherClasses.

(** X5. [EnhancedFooter(text)] mounts without error and its label, the
    widget with style class [status-section], shows [text] for every
    string of letters, digits and spaces, ["Ready"] when the argument is
    left out; the label carries no id, so a lookup by [#status] finds
    nothing. *)
Theorem enhanced_footer_shows_text (text : option string) :
  plain (default "Ready" text) = true →
  (EnhancedFooter.mount (EnhancedFooter.new text)).1 = Returns tt
  ∧ EnhancedFooter.display_text
      (EnhancedFooter.mount (EnhancedFooter.new text)).2
    = Some (default "Ready" text)
  ∧ EnhancedFooter.status_text
      (EnhancedFooter.mount (EnhancedFooter.new text)).2
    = default "Ready" text
  ∧ label_text "#status"
      (EnhancedFooter.children
         (EnhancedFooter.mount (EnhancedFooter.new text)).2)
    = None.
Proof.
  intros Hplain.
  unfold EnhancedFooter.mount, EnhancedFooter.compose, EnhancedFooter.new,
    pre_process, parse_css, Label, modify, mbind, M_bind, mret, M_ret.
  simpl. rewrite (plain_shows _ Hplain). repeat split.
Qed.

Lemma enhanced_footer_shows_text_witness :
  plain (default "Ready" (Some "Busy 2 of 5")) = true
  ∧ (EnhancedFooter.mount (EnhancedFooter.new (Some "Busy 2 of 5"))).1
    = Returns tt
  ∧ EnhancedFooter.display_text
      (EnhancedFooter.mount (EnhancedFooter.new (Some "Busy 2 of 5"))).2
    = Some "Busy 2 of 5".
Proof.
  split; [reflexivity|].
  destruct (enhanced_footer_shows_text (Some "Busy 2 of 5") eq_refl)
    as (Hret & Hshown & _).
  exact (conj Hret Hshown).
Defined.

(** X8. Neither application starts: for any app object, [run] stops
    with [StylesheetParseError] at the [white-space] declaration of the
    class's [CSS] and leaves the object as it was, nothing composed and
    [on_mount] not run.  The [DEFAULT_CSS] of [EnhancedFooter] uses
    known properties only and is accepted. *)
Theorem apps_stop_at_stylesheet :
  (∀ self, NoScrollFooterApp.run self
           = (Raises (StylesheetParseError "white-space"), self))
  ∧ (∀ self, ContainerFooterApp.run self
             = (Raises (StylesheetParseError "white-space"), self))
  ∧ (∀ self : EnhancedFooter.t,
       parse_css EnhancedFooter.DEFAULT_CSS self = (Returns tt, self)).
Proof. repeat split. Qed.

End OtherClasses.
